(** * fit-pw: the login Page Object and the login data factory

    A shallow embedding of [pages/LoginPage.ts] and of
    [utils/factories/LoginDataFactory.ts].  Both files are straight-line
    asynchronous glue over two external libraries: the browser automation
    engine (Playwright) and the fake-data generator (faker).  The two
    libraries are interfaces of the development ([Engine], [Faker]); the
    code of the repository is written once, over any implementation of
    them, in a state-and-exception monad that also records every call
    made to the automation engine. *)

From stdpp Require Import base strings list gmap.

Open Scope string_scope.
Open Scope list_scope.

(** ** JavaScript values and errors *)

(** The run-time values that flow through the code.  The TypeScript types
    ([string], [boolean], [string | null]) are erased at run time, so a
    field declared [string] may well hold [undefined]. *)
Inductive JsValue : Type :=
  | JsUndefined
  | JsNull
  | JsBool (b : bool)
  | JsString (s : string).

Global Instance JsValue_eq_dec : EqDecision JsValue.
Proof. solve_decision. Defined.

(** ToBoolean of the language, as used by [expect(v).toBeTruthy()]. *)
Definition truthy (v : JsValue) : bool :=
  match v with
  | JsUndefined | JsNull => false
  | JsBool b => b
  | JsString s => negb (String.eqb s "")
  end.

(** An [Error] object: its [name] and its [message]. *)
Record JsError : Type := mkError { err_name : string; err_message : string }.

Global Instance JsError_eq_dec : EqDecision JsError.
Proof. solve_decision. Defined.

(** How a call ends: with a value, or with a thrown error (for an
    awaited promise: fulfilled, or rejected). *)
Inductive Outcome (A : Type) : Type :=
  | Returned (a : A)
  | Threw (e : JsError).
Arguments Returned {A} a.
Arguments Threw {A} e.

(** ** The automation engine *)

(** A browser page/session handed out by the test runner. *)
Record Page : Type := mkPage { page_id : nat }.

Global Instance Page_eq_dec : EqDecision Page.
Proof. solve_decision. Defined.

(** The three ways the code queries for an element. *)
Inductive Selector : Type :=
  | ByPlaceholder (text : string)
  | ByRole (role name : string)
  | ByTestId (testId : string).

Global Instance Selector_eq_dec : EqDecision Selector.
Proof. solve_decision. Defined.

(** A locator: a selector scoped to the page it was created from.  The
    element itself is looked up by the engine at each action. *)
Record Locator : Type := mkLocator { loc_page : Page; loc_selector : Selector }.

Global Instance Locator_eq_dec : EqDecision Locator.
Proof. solve_decision. Defined.

(** The asynchronous operations of the engine that the code awaits. *)
Inductive Action : Type :=
  | Goto (p : Page) (url : string)
  | Fill (l : Locator) (value : JsValue)
  | Click (l : Locator)
  | TextContent (l : Locator)
  | IsVisible (l : Locator).

(** [textContent] and [isVisible] ask the page a question; [goto], [fill]
    and [click] act on it. *)
Definition is_query (a : Action) : bool :=
  match a with
  | TextContent _ | IsVisible _ => true
  | Goto _ _ | Fill _ _ | Click _ => false
  end.

(** The automation engine together with the application it drives: the
    state of the browser, and what each awaited operation does to it and
    answers.  A timeout is an answer [Threw]. *)
Class Engine : Type := {
  Browser : Type;
  engine : Action -> Browser -> Outcome JsValue * Browser
}.

(** The fake-data generator: the state of its pseudo-random source and
    the two generators the factory calls. *)
Class Faker : Type := {
  Rng : Type;
  faker_internet_userName : Rng -> string * Rng;
  faker_internet_password : Rng -> string * Rng
}.

(** Modelled from the spec: the generator is the external faker library,
    whose code is not in the repository.  The spec (and the README's
    [randomPassword] test, [length > 0]) give this much of its contract:
    a generated password is a non-empty string. *)
Definition password_nonempty (F : Faker) : Prop :=
  forall g : Rng, 0 < String.length (faker_internet_password g).1.

(** The contract of the engine's two queries: reading the text or the
    visibility of an element leaves the browser as it was. *)
Definition query_pure (E : Engine) : Prop :=
  forall (a : Action) (b : Browser), is_query a = true -> (engine a b).2 = b.

(** An engine that, like the real one, refuses to fill a field with a
    value that is not a string. *)
Definition fill_needs_string (E : Engine) : Prop :=
  forall (l : Locator) (v : JsValue) (b : Browser),
    match v with
    | JsString _ => True
    | _ => exists e, (engine (Fill l v) b).1 = Threw e
    end.

(** One entry per call made to the automation library: the creation of a
    locator, or an awaited operation with its answer. *)
Inductive Event : Type :=
  | Located (l : Locator)
  | Interacted (a : Action) (r : Outcome JsValue).

(** The errors the engine answered with, in order. *)
Fixpoint failures (t : list Event) : list JsError :=
  match t with
  | [] => []
  | Interacted _ (Threw e) :: t' => e :: failures t'
  | _ :: t' => failures t'
  end.

(** The awaited operations of a trace, in order. *)
Fixpoint actions (t : list Event) : list Action :=
  match t with
  | [] => []
  | Interacted a _ :: t' => a :: actions t'
  | Located _ :: t' => actions t'
  end.

(** The locators created in a trace, in order. *)
Fixpoint located (t : list Event) : list Locator :=
  match t with
  | [] => []
  | Located l :: t' => l :: located t'
  | Interacted _ _ :: t' => located t'
  end.

(** Reading a property of [process.env]: the string, or [undefined]
    when the variable is not set. *)
Definition env_value (m : gmap string string) (name : string) : JsValue :=
  match m !! name with
  | Some s => JsString s
  | None => JsUndefined
  end.

(** ** The monad of the code *)

Section Program.
Context {E : Engine} {F : Faker}.

(** Everything outside the code that a call can read or change:
    [process.env], the generator's random source and the browser. *)
Record World : Type := mkWorld {
  env : gmap string string;
  rng : Rng;
  browser : Browser
}.

Definition set_rng (g : Rng) (w : World) : World :=
  {| env := env w; rng := g; browser := browser w |}.

Definition set_browser (b : Browser) (w : World) : World :=
  {| env := env w; rng := rng w; browser := b |}.

Definition set_env (m : gmap string string) (w : World) : World :=
  {| env := m; rng := rng w; browser := browser w |}.

(** The result of running a piece of code: how it ended, the world it
    left, and the calls it made to the automation library. *)
Record Run (A : Type) : Type := mkRun {
  outcome : Outcome A;
  world : World;
  trace : list Event
}.
Arguments mkRun {A} _ _ _.
Arguments outcome {A} _.
Arguments world {A} _.
Arguments trace {A} _.

Definition M (A : Type) : Type := World -> Run A.

Definition ret {A} (a : A) : M A :=
  fun w => mkRun (Returned a) w [].

(** Sequencing, [await m; k]: a thrown error ends the whole sequence. *)
Definition bind {A B} (k : A -> M B) (m : M A) : M B :=
  fun w =>
    match m w with
    | mkRun (Returned a) w1 t1 =>
        match k a w1 with
        | mkRun o w2 t2 => mkRun o w2 (t1 ++ t2)
        end
    | mkRun (Threw e) w1 t1 => mkRun (Threw e) w1 t1
    end.

Definition throw {A} (e : JsError) : M A :=
  fun w => mkRun (Threw e) w [].

(** [try { m } catch (e) { h e }]. *)
Definition try_catch {A} (m : M A) (h : JsError -> M A) : M A :=
  fun w =>
    match m w with
    | mkRun (Returned a) w1 t1 => mkRun (Returned a) w1 t1
    | mkRun (Threw e) w1 t1 =>
        match h e w1 with
        | mkRun o w2 t2 => mkRun o w2 (t1 ++ t2)
        end
    end.

Global Instance M_ret : MRet M := @ret.
Global Instance M_bind : MBind M := @bind.
Global Instance M_throw : MThrow JsError M := @throw.

(** *** The primitives *)

(** [await] of one operation of the engine. *)
Definition perform (a : Action) : M JsValue :=
  fun w =>
    let '(r, b) := engine a (browser w) in
    mkRun r (set_browser b w) [Interacted a r].

(** [page.getByPlaceholder], [page.getByRole], [page.getByTestId]:
    synchronous, they only build the locator. *)
Definition locate (p : Page) (s : Selector) : M Locator :=
  fun w =>
    let l := mkLocator p s in
    mkRun (Returned l) w [Located l].

(** [process.env.NAME!]: the postfix [!] of the source is a compile-time
    annotation and leaves no code, so this is the plain property read. *)
Definition process_env (name : string) : M JsValue :=
  fun w => mkRun (Returned (env_value (env w) name)) w [].

Definition faker_userName : M JsValue :=
  fun w =>
    let '(s, g) := faker_internet_userName (rng w) in
    mkRun (Returned (JsString s)) (set_rng g w) [].

Definition faker_password : M JsValue :=
  fun w =>
    let '(s, g) := faker_internet_password (rng w) in
    mkRun (Returned (JsString s)) (set_rng g w) [].

(** ** utils/factories/LoginDataFactory.ts *)

Record LoginCredentials : Type := mkCredentials {
  username : JsValue;
  password : JsValue
}.

Definition validCredentials : M LoginCredentials :=
  u ← process_env "VALID_USERNAME";
  p ← process_env "VALID_USER_PASSWORD";
  mret {| username := u; password := p |}.

Definition invalidCredentials : M LoginCredentials :=
  u ← faker_userName;
  p ← faker_password;
  mret {| username := u; password := p |}.

Definition randomPassword : M JsValue :=
  faker_password.

(** ** pages/LoginPage.ts *)

Record LoginPage : Type := mkLoginPage {
  page : Page;
  usernameInput : Locator;
  passwordInput : Locator;
  loginButton : Locator;
  errorMessage : Locator
}.

(** [new LoginPage(page)]. *)
Definition new_LoginPage (page : Page) : M LoginPage :=
  usernameInput ← locate page (ByPlaceholder "Username");
  passwordInput ← locate page (ByPlaceholder "Password");
  loginButton ← locate page (ByRole "button" "Login");
  errorMessage ← locate page (ByTestId "error");
  mret (mkLoginPage page usernameInput passwordInput loginButton errorMessage).

Definition navigate (this : LoginPage) : M unit :=
  perform (Goto (page this) "/");; mret tt.

Definition enterUsername (this : LoginPage) (username : JsValue) : M unit :=
  perform (Fill (usernameInput this) username);; mret tt.

Definition enterPassword (this : LoginPage) (password : JsValue) : M unit :=
  perform (Fill (passwordInput this) password);; mret tt.

Definition clickLoginButton (this : LoginPage) : M unit :=
  perform (Click (loginButton this));; mret tt.

Definition login (this : LoginPage) (username password : JsValue) : M unit :=
  enterUsername this username;;
  enterPassword this password;;
  clickLoginButton this.

Definition getErrorMessage (this : LoginPage) : M JsValue :=
  perform (TextContent (errorMessage this)).

Definition isErrorMessageVisible (this : LoginPage) : M JsValue :=
  perform (IsVisible (errorMessage this)).

(** The methods of a [LoginPage], as a caller can invoke them.  An
    [async] method without a [return] fulfils with [undefined]. *)
Inductive Method : Type :=
  | Navigate
  | EnterUsername (username : JsValue)
  | EnterPassword (password : JsValue)
  | ClickLoginButton
  | Login (username password : JsValue)
  | GetErrorMessage
  | IsErrorMessageVisible.

Definition call (this : LoginPage) (m : Method) : M JsValue :=
  match m with
  | Navigate => navigate this;; mret JsUndefined
  | EnterUsername u => enterUsername this u;; mret JsUndefined
  | EnterPassword p => enterPassword this p;; mret JsUndefined
  | ClickLoginButton => clickLoginButton this;; mret JsUndefined
  | Login u p => login this u p;; mret JsUndefined
  | GetErrorMessage => getErrorMessage this
  | IsErrorMessageVisible => isErrorMessageVisible this
  end.

(** What an awaited operation is addressed to: one of the four locators
    of the object, or its page. *)
Definition targets (this : LoginPage) (a : Action) : Prop :=
  match a with
  | Goto p _ => p = page this
  | Fill l _ | Click l | TextContent l | IsVisible l =>
      l ∈ [usernameInput this; passwordInput this;
           loginButton this; errorMessage this]
  end.

(** The composite login in the words of the specification: fill the
    username field, then fill the password field, then click the login
    button. *)
Definition login_spec (this : LoginPage) (username password : JsValue) : M unit :=
  perform (Fill (usernameInput this) username);;
  perform (Fill (passwordInput this) password);;
  perform (Click (loginButton this));;
  mret tt.

(** A run in which no failure was handled on the way: either it returned
    and the engine never failed, or it threw the very error of its last
    call to the engine, and that was the only failure. *)
Definition propagated {A} (r : Run A) : Prop :=
  match outcome r with
  | Returned _ => failures (trace r) = []
  | Threw e =>
      exists (pre : list Event) (a : Action),
        trace r = pre ++ [Interacted a (Threw e)] /\ failures pre = []
  end.

Definition transparent {A} (m : M A) : Prop :=
  forall w : World, propagated (m w).

(** A trace that creates no locator and addresses only the locators and
    the page of [this]. *)
Definition confined (this : LoginPage) (t : list Event) : Prop :=
  Forall (fun ev => match ev with
                    | Located _ => False
                    | Interacted a _ => targets this a
                    end) t.

(** ** tests/login.spec.ts *)

Definition expect_toBeTruthy (received : JsValue) : M unit :=
  if truthy received then mret tt
  else mthrow (mkError "Error" "expect(received).toBeTruthy()").

Definition expect_toBe (received expected : JsValue) : M unit :=
  if decide (received = expected) then mret tt
  else mthrow (mkError "Error" "expect(received).toBe(expected)").

Definition beforeEach (page : Page) : M LoginPage :=
  loginPage ← new_LoginPage page;
  navigate loginPage;;
  mret loginPage.

Definition no_match_message : string :=
  "Epic sadface: Username and password do not match any user in this service".

(** [test('should display error with invalid username', ...)], with its
    [beforeEach]. *)
Definition should_display_error_with_invalid_username (page : Page) : M unit :=
  loginPage ← beforeEach page;
  valid ← validCredentials;
  invalid ← invalidCredentials;
  login loginPage (username invalid) (password valid);;
  visible ← isErrorMessageVisible loginPage;
  expect_toBeTruthy visible;;
  message ← getErrorMessage loginPage;
  expect_toBe message (JsString no_match_message).

(** [test('should display error with invalid password', ...)], with its
    [beforeEach]. *)
Definition should_display_error_with_invalid_password (page : Page) : M unit :=
  loginPage ← beforeEach page;
  valid ← validCredentials;
  invalid ← invalidCredentials;
  login loginPage (username valid) (password invalid);;
  visible ← isErrorMessageVisible loginPage;
  expect_toBeTruthy visible;;
  message ← getErrorMessage loginPage;
  expect_toBe message (JsString no_match_message).

Definition username_required_message : string :=
  "Epic sadface: Username is required".

(** [test('should display error with empty credentials', ...)], with its
    [beforeEach]. *)
Definition should_display_error_with_empty_credentials (page : Page) : M unit :=
  loginPage ← beforeEach page;
  clickLoginButton loginPage;;
  visible ← isErrorMessageVisible loginPage;
  expect_toBeTruthy visible;;
  message ← getErrorMessage loginPage;
  expect_toBe message (JsString username_required_message).

(** The three scenarios above, by name. *)
Inductive Scenario : Type :=
  | InvalidUsername
  | InvalidPassword
  | EmptyCredentials.

Definition scenario (s : Scenario) (page : Page) : M unit :=
  match s with
  | InvalidUsername => should_display_error_with_invalid_username page
  | InvalidPassword => should_display_error_with_invalid_password page
  | EmptyCredentials => should_display_error_with_empty_credentials page
  end.

(** *** Vocabulary of the properties *)

Definition is_string (v : JsValue) : bool :=
  match v with
  | JsString _ => true
  | _ => false
  end.

(** The page an awaited operation goes to. *)
Definition action_page (a : Action) : Page :=
  match a with
  | Goto p _ => p
  | Fill l _ | Click l | TextContent l | IsVisible l => loc_page l
  end.

(** The two errors that the assertions of the scenarios raise. *)
Definition is_assertion (e : JsError) : Prop :=
  e = mkError "Error" "expect(received).toBeTruthy()"
  \/ e = mkError "Error" "expect(received).toBe(expected)".

(** A run of a scenario in which nothing was handled on the way: it
    returned and the engine never failed; or it threw the error of its
    last call to the engine, the only failure; or the engine never failed
    and it threw an assertion error. *)
Definition checked {A} (r : Run A) : Prop :=
  match outcome r with
  | Returned _ => failures (trace r) = []
  | Threw e =>
      (exists (pre : list Event) (a : Action),
         trace r = pre ++ [Interacted a (Threw e)] /\ failures pre = [])
      \/ (is_assertion e /\ failures (trace r) = [])
  end.

(** The text each scenario expects in the error banner. *)
Definition expected_message (s : Scenario) : string :=
  match s with
  | InvalidUsername | InvalidPassword => no_match_message
  | EmptyCredentials => username_required_message
  end.

(** The operations a scenario awaits when none of them fails, with the
    values it passes, read off the world it starts in. *)
Definition script (s : Scenario) (pg : Page) (w : World) : list Action :=
  let generated := faker_internet_userName (rng w) in
  let usernameInput := mkLocator pg (ByPlaceholder "Username") in
  let passwordInput := mkLocator pg (ByPlaceholder "Password") in
  let loginButton := mkLocator pg (ByRole "button" "Login") in
  let errorMessage := mkLocator pg (ByTestId "error") in
  [Goto pg "/"]
  ++ match s with
     | InvalidUsername =>
         [Fill usernameInput (JsString generated.1);
          Fill passwordInput (env_value (env w) "VALID_USER_PASSWORD")]
     | InvalidPassword =>
         [Fill usernameInput (env_value (env w) "VALID_USERNAME");
          Fill passwordInput
               (JsString (faker_internet_password generated.2).1)]
     | EmptyCredentials => []
     end
  ++ [Click loginButton; IsVisible errorMessage; TextContent errorMessage].

End Program.

Arguments Run {E F} A.
Arguments mkRun {E F A} _ _ _.
Arguments outcome {E F A} _.
Arguments world {E F A} _.
Arguments trace {E F A} _.
Arguments M {E F} A.

(** ** A sample engine and a sample generator

    One implementation of each interface, small enough to run: a login
    form with one registered user, and a generator that walks through a
    fixed list of names and passwords. *)
Module Sample.

Record Form : Type := mkForm {
  url : string;
  usernameField : string;
  passwordField : string;
  banner : option string
}.

Definition timeout (what : string) : JsError :=
  mkError "TimeoutError" ("Timeout 30000ms exceeded: " +:+ what).

Definition submit (f : Form) : Form :=
  if String.eqb (usernameField f) "" then
    mkForm (url f) (usernameField f) (passwordField f)
           (Some "Epic sadface: Username is required")
  else if String.eqb (passwordField f) "" then
    mkForm (url f) (usernameField f) (passwordField f)
           (Some "Epic sadface: Password is required")
  else if String.eqb (usernameField f) "standard_user"
          && String.eqb (passwordField f) "secret_sauce" then
    mkForm "/inventory.html" "" "" None
  else
    mkForm (url f) (usernameField f) (passwordField f)
           (Some "Epic sadface: Username and password do not match any user in this service").

Definition step (a : Action) (f : Form) : Outcome JsValue * Form :=
  match a with
  | Goto _ u => (Returned JsNull, mkForm u "" "" None)
  | Fill l (JsString s) =>
      if decide (loc_selector l = ByPlaceholder "Username") then
        (Returned JsUndefined, mkForm (url f) s (passwordField f) (banner f))
      else if decide (loc_selector l = ByPlaceholder "Password") then
        (Returned JsUndefined, mkForm (url f) (usernameField f) s (banner f))
      else (Threw (timeout "locator.fill"), f)
  | Fill _ _ => (Threw (mkError "Error" "locator.fill: value: expected string"), f)
  | Click l =>
      if decide (loc_selector l = ByRole "button" "Login") then
        (Returned JsUndefined, submit f)
      else (Threw (timeout "locator.click"), f)
  | TextContent l =>
      match banner f with
      | Some m =>
          if decide (loc_selector l = ByTestId "error") then
            (Returned (JsString m), f)
          else (Threw (timeout "locator.textContent"), f)
      | None => (Threw (timeout "locator.textContent"), f)
      end
  | IsVisible l =>
      match banner f with
      | Some _ =>
          (Returned (JsBool (bool_decide (loc_selector l = ByTestId "error"))), f)
      | None => (Returned (JsBool false), f)
      end
  end.

Definition form_engine : Engine := {| Browser := Form; engine := step |}.

Definition names : list string :=
  ["Kaley_Roob"; "standard_user"; "Otho.Stark12"].

Definition passwords : list string :=
  ["Xk3_aP9qLm2Zr0u"; "secret_sauce"; "hT7bQ_w1NnYc4Ve"].

Definition pick (l : list string) (g : nat) : string :=
  default "" (l !! (g mod length l)).

Definition list_faker : Faker := {|
  Rng := nat;
  faker_internet_userName := fun g => (pick names g, S g);
  faker_internet_password := fun g => (pick passwords g, S g)
|}.

(** A generator that is stuck on one value. *)
Definition constant_faker : Faker := {|
  Rng := unit;
  faker_internet_userName := fun g => ("Kaley_Roob", g);
  faker_internet_password := fun g => ("Xk3_aP9qLm2Zr0u", g)
|}.

Definition blank : Form := mkForm "about:blank" "" "" None.

Definition dotenv : gmap string string :=
  {[ "BASE_URL" := "https://www.saucedemo.com";
     "VALID_USERNAME" := "standard_user";
     "VALID_USER_PASSWORD" := "secret_sauce" ]}.

(** A process started with the [.env] file of the README, and one
    started without any of the three variables. *)
Definition configured (g : nat) : @World form_engine list_faker :=
  @mkWorld form_engine list_faker dotenv g blank.

Definition unconfigured (g : nat) : @World form_engine list_faker :=
  @mkWorld form_engine list_faker ∅ g blank.

(** The same configuration with the stuck generator. *)
Definition stuck : @World form_engine constant_faker :=
  @mkWorld form_engine constant_faker dotenv tt blank.

(** The README's configuration with another username and without
    [BASE_URL]. *)
Definition other_user (g : nat) : @World form_engine list_faker :=
  @mkWorld form_engine list_faker
    (<["VALID_USERNAME" := "Kaley_Roob"]> (delete "BASE_URL" dotenv)) g blank.

(** A page object on the first page of the sample browser. *)

Definition sample_page : Page := mkPage 1.

Definition sample_login_page : LoginPage :=
  mkLoginPage sample_page
              (mkLocator sample_page (ByPlaceholder "Username"))
              (mkLocator sample_page (ByPlaceholder "Password"))
              (mkLocator sample_page (ByRole "button" "Login"))
              (mkLocator sample_page (ByTestId "error")).

End Sample.

(** * Properties *)

(** ** Running the monad *)

Section Running.
Context {E : Engine} {F : Faker}.

Lemma bind_returned {A B} (m : M A) (k : A -> M B) (w : World) (a : A) :
  outcome (m w) = Returned a ->
  (m ≫= k) w =
    mkRun (outcome (k a (world (m w)))) (world (k a (world (m w))))
          (trace (m w) ++ trace (k a (world (m w)))).
Proof.
  unfold mbind, M_bind, bind. destruct (m w) as [o w1 t1]. cbn.
  intros ->. now destruct (k a w1).
Qed.

Lemma bind_threw {A B} (m : M A) (k : A -> M B) (w : World) (e : JsError) :
  outcome (m w) = Threw e ->
  (m ≫= k) w = mkRun (Threw e) (world (m w)) (trace (m w)).
Proof.
  unfold mbind, M_bind, bind. destruct (m w) as [o w1 t1]. cbn.
  now intros ->.
Qed.

Lemma perform_run (a : Action) (w : World) :
  perform a w =
    mkRun (engine a (browser w)).1
          (set_browser (engine a (browser w)).2 w)
          [Interacted a (engine a (browser w)).1].
Proof. unfold perform. now destruct (engine a (browser w)). Qed.

Lemma faker_userName_run (w : World) :
  faker_userName w =
    mkRun (Returned (JsString (faker_internet_userName (rng w)).1))
          (set_rng (faker_internet_userName (rng w)).2 w) [].
Proof. unfold faker_userName. now destruct (faker_internet_userName (rng w)). Qed.

Lemma faker_password_run (w : World) :
  faker_password w =
    mkRun (Returned (JsString (faker_internet_password (rng w)).1))
          (set_rng (faker_internet_password (rng w)).2 w) [].
Proof. unfold faker_password. now destruct (faker_internet_password (rng w)). Qed.

Lemma validCredentials_run (w : World) :
  validCredentials w =
    mkRun (Returned {| username := env_value (env w) "VALID_USERNAME";
                       password := env_value (env w) "VALID_USER_PASSWORD" |})
          w [].
Proof. reflexivity. Qed.

Lemma invalidCredentials_run (w : World) :
  let u := faker_internet_userName (rng w) in
  let p := faker_internet_password u.2 in
  invalidCredentials w =
    mkRun (Returned {| username := JsString u.1; password := JsString p.1 |})
          (set_rng p.2 w) [].
Proof.
  cbv zeta. unfold invalidCredentials.
  rewrite (bind_returned _ _ _ _ ltac:(rewrite faker_userName_run; reflexivity)).
  rewrite faker_userName_run. cbn [world trace outcome].
  rewrite (bind_returned _ _ _ _ ltac:(rewrite faker_password_run; reflexivity)).
  rewrite faker_password_run. reflexivity.
Qed.

Lemma failures_app (s t : list Event) :
  failures (s ++ t) = failures s ++ failures t.
Proof.
  induction s as [|[l|a [v|e]] s IH]; cbn; [reflexivity | assumption..|].
  now rewrite IH.
Qed.

End Running.

(** ** The data factory *)

Import Sample.

(** C1, as amended: [validCredentials()] never throws.  It returns the
    record [{username: process.env.VALID_USERNAME, password:
    process.env.VALID_USER_PASSWORD}] and touches nothing: when both
    variables are set these are the two configured strings, and a variable
    that is not set comes back as [undefined] in its field. *)
Theorem validCredentials_returns_env_record {E : Engine} {F : Faker} (w : World) :
  validCredentials w =
    mkRun (Returned {| username := env_value (env w) "VALID_USERNAME";
                       password := env_value (env w) "VALID_USER_PASSWORD" |})
          w []
  /\ (forall u p : string,
        env w !! "VALID_USERNAME" = Some u ->
        env w !! "VALID_USER_PASSWORD" = Some p ->
        outcome (validCredentials w) =
          Returned {| username := JsString u; password := JsString p |})
  /\ (env w !! "VALID_USERNAME" = None ->
        exists p, outcome (validCredentials w) =
                    Returned {| username := JsUndefined; password := p |})
  /\ (env w !! "VALID_USER_PASSWORD" = None ->
        exists u, outcome (validCredentials w) =
                    Returned {| username := u; password := JsUndefined |}).
Proof.
  rewrite validCredentials_run. cbn [outcome]. unfold env_value.
  split; [reflexivity|]. split; [|split].
  - intros u p -> ->. reflexivity.
  - intros ->. eauto.
  - intros ->. eauto.
Qed.

Lemma validCredentials_returns_env_record_witness :
  outcome (validCredentials (configured 0)) =
    Returned {| username := JsString "standard_user";
                password := JsString "secret_sauce" |}
  /\ (exists p, outcome (validCredentials (unconfigured 0)) =
                  Returned {| username := JsUndefined; password := p |})
  /\ (exists u, outcome (validCredentials (unconfigured 0)) =
                  Returned {| username := u; password := JsUndefined |}).
Proof.
  split; [|split].
  - apply (proj1 (proj2 (validCredentials_returns_env_record (configured 0))));
      vm_compute; reflexivity.
  - apply (proj1 (proj2 (proj2
             (validCredentials_returns_env_record (unconfigured 0)))));
      vm_compute; reflexivity.
  - apply (proj2 (proj2 (proj2
             (validCredentials_returns_env_record (unconfigured 0)))));
      vm_compute; reflexivity.
Defined.

(** C1, as stated, fails: in a process where neither variable is set,
    [validCredentials()] does not throw. *)
Lemma validCredentials_unset_does_not_throw :
  (env (unconfigured 0) !! "VALID_USERNAME" = None
   \/ env (unconfigured 0) !! "VALID_USER_PASSWORD" = None)
  /\ ~ (exists e, outcome (validCredentials (unconfigured 0)) = Threw e).
Proof.
  split.
  - left. vm_compute. reflexivity.
  - intros [e He]. vm_compute in He. discriminate He.
Qed.

(** C2: [validCredentials()] is a function of the two configured values
    alone.  Two processes that agree on [VALID_USERNAME] and
    [VALID_USER_PASSWORD] get equal records, whatever their random
    sources, generators and browsers are; the call leaves the world
    (random source included) as it found it, and two calls in a row in
    one process return the same record. *)
Theorem validCredentials_deterministic
    {E1 E2 : Engine} {F1 F2 : Faker}
    (w1 : @World E1 F1) (w2 : @World E2 F2) :
  env w1 !! "VALID_USERNAME" = env w2 !! "VALID_USERNAME" ->
  env w1 !! "VALID_USER_PASSWORD" = env w2 !! "VALID_USER_PASSWORD" ->
  outcome (validCredentials w1) = outcome (validCredentials w2)
  /\ world (validCredentials w1) = w1
  /\ exists c,
       outcome ((c1 ← validCredentials;
                 c2 ← validCredentials;
                 mret (c1, c2)) w1) = Returned (c, c).
Proof.
  intros Hu Hp. rewrite !validCredentials_run. cbn [outcome world].
  unfold env_value. rewrite Hu, Hp. split; [reflexivity|].
  split; [reflexivity|]. eexists. reflexivity.
Qed.

Lemma validCredentials_deterministic_witness :
  outcome (validCredentials (configured 0)) = outcome (validCredentials stuck)
  /\ world (validCredentials (configured 0)) = configured 0
  /\ exists c,
       outcome ((c1 ← validCredentials;
                 c2 ← validCredentials;
                 mret (c1, c2)) (configured 0)) = Returned (c, c).
Proof.
  apply (validCredentials_deterministic (configured 0) stuck);
    vm_compute; reflexivity.
Defined.

(** C10: [invalidCredentials()] and [randomPassword()] are functions of
    the state of the random source alone.  Two processes with the same
    generator in the same state get identical results, and leave the
    generator in identical states, whatever [process.env] holds
    ([BASE_URL], [VALID_USERNAME], [VALID_USER_PASSWORD] included) and
    whatever their browsers are; neither call writes [process.env]. *)
Theorem generated_data_ignores_configuration
    {F : Faker} {E1 E2 : Engine}
    (w1 : @World E1 F) (w2 : @World E2 F) :
  rng w1 = rng w2 ->
  (outcome (invalidCredentials w1) = outcome (invalidCredentials w2)
   /\ rng (world (invalidCredentials w1)) = rng (world (invalidCredentials w2))
   /\ env (world (invalidCredentials w1)) = env w1)
  /\ (outcome (randomPassword w1) = outcome (randomPassword w2)
      /\ rng (world (randomPassword w1)) = rng (world (randomPassword w2))
      /\ env (world (randomPassword w1)) = env w1).
Proof.
  intros Hg. pose proof (invalidCredentials_run w1) as H1.
  pose proof (invalidCredentials_run w2) as H2. cbv zeta in H1, H2.
  rewrite H1, H2. unfold randomPassword. rewrite !faker_password_run.
  cbn [outcome world set_rng rng env]. rewrite Hg. repeat split.
Qed.

Lemma generated_data_ignores_configuration_witness :
  (outcome (invalidCredentials (configured 1))
     = outcome (invalidCredentials (unconfigured 1))
   /\ rng (world (invalidCredentials (configured 1)))
        = rng (world (invalidCredentials (unconfigured 1)))
   /\ env (world (invalidCredentials (configured 1))) = env (configured 1))
  /\ (outcome (randomPassword (configured 1))
        = outcome (randomPassword (unconfigured 1))
      /\ rng (world (randomPassword (configured 1)))
           = rng (world (randomPassword (unconfigured 1)))
      /\ env (world (randomPassword (configured 1))) = env (configured 1)).
Proof.
  apply (generated_data_ignores_configuration (configured 1) (unconfigured 1)).
  reflexivity.
Defined.

(** The two sample generators meet the contract of the generator. *)
Lemma list_faker_password_nonempty : password_nonempty list_faker.
Proof.
  intros g. cbn. unfold pick. cbn [length passwords].
  pose proof (Nat.mod_upper_bound g 3 ltac:(lia)) as Hlt.
  destruct (g mod 3) as [|[|[|n]]]; cbn; lia.
Defined.

Lemma constant_faker_password_nonempty : password_nonempty constant_faker.
Proof. intros g. cbn. lia. Defined.

(** C5: [randomPassword()] returns a non-empty string, at every call:
    for any two calls in a row, both results are strings of length
    greater than zero.  Nothing is said about the two being different.
    The string is the one the generator hands out, so this rests on the
    generator's contract [password_nonempty]. *)
Theorem randomPassword_nonempty {E : Engine} {F : Faker} (w : World) :
  password_nonempty F ->
  (exists s, outcome (randomPassword w) = Returned (JsString s)
             /\ 0 < String.length s)
  /\ exists s1 s2,
       outcome ((p1 ← randomPassword;
                 p2 ← randomPassword;
                 mret (p1, p2)) w) = Returned (JsString s1, JsString s2)
       /\ 0 < String.length s1 /\ 0 < String.length s2.
Proof.
  intros HF. unfold randomPassword. split.
  - rewrite faker_password_run. cbn [outcome]. eexists. split; [reflexivity|].
    apply HF.
  - rewrite (bind_returned _ _ _ _ ltac:(rewrite faker_password_run; reflexivity)).
    rewrite faker_password_run. cbn [world trace outcome].
    rewrite (bind_returned _ _ _ _ ltac:(rewrite faker_password_run; reflexivity)).
    rewrite faker_password_run. cbn [world trace outcome set_rng rng].
    do 2 eexists. split; [reflexivity|]. split; apply HF.
Qed.

Lemma randomPassword_nonempty_witness :
  (exists s, outcome (randomPassword (configured 0)) = Returned (JsString s)
             /\ 0 < String.length s)
  /\ exists s1 s2,
       outcome ((p1 ← randomPassword;
                 p2 ← randomPassword;
                 mret (p1, p2)) (configured 0))
         = Returned (JsString s1, JsString s2)
       /\ 0 < String.length s1 /\ 0 < String.length s2.
Proof.
  apply (randomPassword_nonempty (configured 0)).
  exact list_faker_password_nonempty.
Defined.

(** Two calls in a row may return the same password: the stuck generator
    meets the contract and repeats itself. *)
Remark randomPassword_may_repeat :
  password_nonempty constant_faker
  /\ exists v,
       outcome ((p1 ← randomPassword;
                 p2 ← randomPassword;
                 mret (p1, p2)) stuck) = Returned (v, v).
Proof.
  split; [exact constant_faker_password_nonempty|].
  eexists. vm_compute. reflexivity.
Qed.

(** C7: [invalidCredentials()] hands out whatever the generator produces
    next, first the username, then the password, and never compares it
    with the configuration.  So nothing keeps the generated username away
    from [VALID_USERNAME]: from any state of any generator there is a
    configured value that the call collides with; with the README's
    configuration the sample generator collides in state 1; and two calls
    in a row may return the very same pair. *)
Theorem invalidCredentials_may_collide :
  (forall (E : Engine) (F : Faker) (w : World),
     let u := faker_internet_userName (rng w) in
     let p := faker_internet_password u.2 in
     outcome (invalidCredentials w) =
       Returned {| username := JsString u.1; password := JsString p.1 |}
     /\ world (invalidCredentials w) = set_rng p.2 w)
  /\ (forall (E : Engine) (F : Faker) (w : World),
        exists (valid : string) (c v : LoginCredentials),
          let w' := set_env (<["VALID_USERNAME" := valid]> (env w)) w in
          outcome (invalidCredentials w') = Returned c
          /\ outcome (validCredentials w') = Returned v
          /\ username c = username v)
  /\ (exists c v : LoginCredentials,
        outcome (invalidCredentials (configured 1)) = Returned c
        /\ outcome (validCredentials (configured 1)) = Returned v
        /\ username c = username v)
  /\ (exists c : LoginCredentials,
        outcome ((c1 ← invalidCredentials;
                  c2 ← invalidCredentials;
                  mret (c1, c2)) stuck) = Returned (c, c)).
Proof.
  split; [|split; [|split]].
  - intros E F w. pose proof (invalidCredentials_run w) as H. cbv zeta in *.
    rewrite H. split; reflexivity.
  - intros E F w. exists (faker_internet_userName (rng w)).1.
    do 2 eexists. cbv zeta.
    pose proof (invalidCredentials_run
                  (set_env (<["VALID_USERNAME" :=
                               (faker_internet_userName (rng w)).1]> (env w)) w))
      as H. cbv zeta in H. rewrite H, validCredentials_run.
    cbn [outcome set_env env rng]. split; [reflexivity|]. split; [reflexivity|].
    cbn [username]. unfold env_value. now rewrite lookup_insert_eq.
  - do 2 eexists. split; [vm_compute; reflexivity|].
    split; [vm_compute; reflexivity|]. reflexivity.
  - eexists. vm_compute. reflexivity.
Qed.

(** ** The page object *)

Section Traces.
Context {E : Engine} {F : Faker}.

Lemma trace_bind {A B} (m : M A) (k : A -> M B) (w : World) :
  trace ((m ≫= k) w) =
    trace (m w) ++ match outcome (m w) with
                   | Returned a => trace (k a (world (m w)))
                   | Threw _ => []
                   end.
Proof.
  destruct (outcome (m w)) as [a|e] eqn:Hm.
  - now rewrite (bind_returned _ _ _ _ Hm).
  - rewrite (bind_threw _ _ _ _ Hm). cbn [trace]. now rewrite app_nil_r.
Qed.

Lemma transparent_ret {A} (a : A) : transparent (mret a : M A).
Proof. intros w. reflexivity. Qed.

Lemma transparent_perform (a : Action) : transparent (perform a).
Proof.
  intros w. unfold propagated. rewrite perform_run. cbn [outcome trace].
  destruct (engine a (browser w)).1 as [v|e]; [reflexivity|].
  exists [], a. split; reflexivity.
Qed.

Lemma transparent_locate (p : Page) (s : Selector) : transparent (locate p s).
Proof. intros w. reflexivity. Qed.

Lemma transparent_bind {A B} (m : M A) (k : A -> M B) :
  transparent m -> (forall a, transparent (k a)) -> transparent (m ≫= k).
Proof.
  intros Hm Hk w. specialize (Hm w). unfold propagated in *.
  destruct (outcome (m w)) as [a|e] eqn:Hout.
  - rewrite (bind_returned _ _ _ _ Hout). cbn [outcome trace].
    specialize (Hk a (world (m w))). unfold propagated in Hk.
    destruct (outcome (k a (world (m w)))) as [b|e].
    + now rewrite failures_app, Hm, Hk.
    + destruct Hk as (pre & act & Htr & Hpre).
      exists (trace (m w) ++ pre), act. split.
      * now rewrite Htr, app_assoc.
      * now rewrite failures_app, Hm, Hpre.
  - rewrite (bind_threw _ _ _ _ Hout). cbn [outcome trace]. exact Hm.
Qed.

Lemma confined_ret {A} (this : LoginPage) (a : A) (w : World) :
  confined this (trace ((mret a : M A) w)).
Proof. constructor. Qed.

Lemma confined_perform (this : LoginPage) (a : Action) (w : World) :
  targets this a -> confined this (trace (perform a w)).
Proof.
  intros Ha. rewrite perform_run. cbn [trace].
  constructor; [exact Ha | constructor].
Qed.

Lemma confined_bind {A B} (this : LoginPage) (m : M A) (k : A -> M B) (w : World) :
  confined this (trace (m w)) ->
  (forall a w', confined this (trace (k a w'))) ->
  confined this (trace ((m ≫= k) w)).
Proof.
  intros Hm Hk. rewrite trace_bind. apply Forall_app. split; [exact Hm|].
  destruct (outcome (m w)); [apply Hk | constructor].
Qed.

End Traces.

Create HintDb page_object discriminated.
#[export] Hint Resolve transparent_ret transparent_perform transparent_locate
  confined_ret confined_perform : page_object.

Ltac step_through :=
  repeat first
    [ apply transparent_bind; [|intros ?]
    | apply confined_bind; [|intros ? ?]
    | solve [auto with page_object]
    | apply confined_perform; cbn [targets]; set_solver ].

Section PageObject.
Context {E : Engine} {F : Faker}.

Lemma transparent_process_env (name : string) : transparent (process_env name).
Proof. intros w. reflexivity. Qed.

Lemma transparent_faker_userName : transparent faker_userName.
Proof. intros w. unfold propagated. now rewrite faker_userName_run. Qed.

Lemma transparent_faker_password : transparent faker_password.
Proof. intros w. unfold propagated. now rewrite faker_password_run. Qed.

(** C3: for every username and password, [login(username, password)] is
    the sequence of the three single actions, in this order: from every
    world it ends the same way, leaves the same world and makes the same
    calls as filling the username field, then filling the password field,
    then clicking the login button.  It makes no other call: its awaited
    operations are an initial part of these three (all three when it
    returns, fewer only because an earlier one threw), and it creates no
    locator. *)
Theorem login_is_fill_fill_click (this : LoginPage) (u p : JsValue) (w : World) :
  login this u p w
    = (enterUsername this u;; enterPassword this p;; clickLoginButton this) w
  /\ login this u p w = login_spec this u p w
  /\ actions (trace (login this u p w))
       `prefix_of` [Fill (usernameInput this) u;
                    Fill (passwordInput this) p;
                    Click (loginButton this)]
  /\ located (trace (login this u p w)) = []
  /\ (outcome (login this u p w) = Returned tt ->
      actions (trace (login this u p w))
        = [Fill (usernameInput this) u;
           Fill (passwordInput this) p;
           Click (loginButton this)]).
Proof.
  split; [reflexivity|].
  unfold login, login_spec, enterUsername, enterPassword, clickLoginButton.
  unfold mbind, M_bind, bind, mret, M_ret, ret, perform.
  destruct (engine (Fill (usernameInput this) u) (browser w)) as [[v1|e1] b1];
    cbn.
  - destruct (engine (Fill (passwordInput this) p) b1) as [[v2|e2] b2]; cbn.
    + destruct (engine (Click (loginButton this)) b2) as [[v3|e3] b3]; cbn;
        (split; [reflexivity|]); (split; [reflexivity|]);
        (split; [reflexivity|]); auto.
    + split; [reflexivity|]. split; [eexists; reflexivity|].
      split; [reflexivity|]. discriminate.
  - split; [reflexivity|]. split; [eexists; reflexivity|].
    split; [reflexivity|]. discriminate.
Qed.

(** C4: no operation of the page object or of the data factory handles a
    failure.  In every call of every method, as soon as the engine
    answers an operation with an error the call makes no further
    operation and throws that same error; a call that returns has seen no
    failure.  The same holds of the constructor and of the three
    producers of the factory, which moreover make no call to the engine
    and always return. *)
Theorem failures_propagate_unchanged :
  (forall (this : LoginPage) (m : Method), transparent (call this m))
  /\ (forall pg : Page, transparent (new_LoginPage pg))
  /\ (transparent validCredentials
      /\ transparent invalidCredentials
      /\ transparent randomPassword)
  /\ (forall w : World,
        (trace (validCredentials w) = []
         /\ exists c, outcome (validCredentials w) = Returned c)
        /\ (trace (invalidCredentials w) = []
            /\ exists c, outcome (invalidCredentials w) = Returned c)
        /\ (trace (randomPassword w) = []
            /\ exists v, outcome (randomPassword w) = Returned v)).
Proof.
  pose proof transparent_process_env. pose proof transparent_faker_userName.
  pose proof transparent_faker_password.
  split; [|split; [|split]].
  - intros this [ |u|p| |u p| | ]; cbn [call];
      unfold navigate, enterUsername, enterPassword, clickLoginButton, login,
        getErrorMessage, isErrorMessageVisible; step_through.
  - intros pg. unfold new_LoginPage. step_through.
  - unfold validCredentials, invalidCredentials, randomPassword.
    repeat split; step_through.
  - intros w. pose proof (invalidCredentials_run w) as Hi. cbv zeta in Hi.
    rewrite Hi, validCredentials_run. unfold randomPassword.
    rewrite faker_password_run. cbn [trace outcome].
    repeat split; eexists; reflexivity.
Qed.

(** C8: [new LoginPage(page)] creates the four locators (username field,
    password field, login button, error banner), each once and each from
    the page it is given, stores them with that page, and does nothing
    else.  Afterwards every method call on the object creates no locator
    and addresses only these four locators and that page. *)
Theorem locators_fixed_at_construction (pg : Page) (w : World) :
  exists this : LoginPage,
    new_LoginPage pg w =
      mkRun (Returned this) w
            [Located (usernameInput this); Located (passwordInput this);
             Located (loginButton this); Located (errorMessage this)]
    /\ this = mkLoginPage pg (mkLocator pg (ByPlaceholder "Username"))
                             (mkLocator pg (ByPlaceholder "Password"))
                             (mkLocator pg (ByRole "button" "Login"))
                             (mkLocator pg (ByTestId "error"))
    /\ page this = pg
    /\ Forall (fun l => loc_page l = pg)
              [usernameInput this; passwordInput this;
               loginButton this; errorMessage this]
    /\ forall (m : Method) (w' : World), confined this (trace (call this m w')).
Proof.
  exists (mkLoginPage pg (mkLocator pg (ByPlaceholder "Username"))
                         (mkLocator pg (ByPlaceholder "Password"))
                         (mkLocator pg (ByRole "button" "Login"))
                         (mkLocator pg (ByTestId "error"))).
  split; [reflexivity|]. split; [reflexivity|].
  split; [reflexivity|]. split; [repeat constructor|].
  intros [ |u|p| |u p| | ] w'; cbn [call];
    unfold navigate, enterUsername, enterPassword, clickLoginButton, login,
      getErrorMessage, isErrorMessageVisible; step_through.
Qed.

(** C9: [getErrorMessage()] and [isErrorMessageVisible()] are read-only
    accessors.  Each makes one call, the query of the error banner's
    text, respectively of its visibility, and hands back the engine's
    answer; it leaves [process.env] and the random source alone, and the
    browser in the state in which this one query leaves it.  With an
    engine whose queries do not change the browser ([query_pure]) the
    whole world, page state included, is as it was. *)
Theorem error_accessors_read_only (this : LoginPage) (w : World) :
  let text := engine (TextContent (errorMessage this)) (browser w) in
  let visible := engine (IsVisible (errorMessage this)) (browser w) in
  getErrorMessage this w
    = mkRun text.1 (set_browser text.2 w)
            [Interacted (TextContent (errorMessage this)) text.1]
  /\ isErrorMessageVisible this w
       = mkRun visible.1 (set_browser visible.2 w)
               [Interacted (IsVisible (errorMessage this)) visible.1]
  /\ (query_pure E ->
      world (getErrorMessage this w) = w
      /\ world (isErrorMessageVisible this w) = w).
Proof.
  cbv zeta. unfold getErrorMessage, isErrorMessageVisible.
  rewrite !perform_run. split; [reflexivity|]. split; [reflexivity|].
  intros Hq. cbn [world]. rewrite !Hq by reflexivity.
  destruct w; split; reflexivity.
Qed.

End PageObject.

(** ** On the sample engine *)

Lemma login_is_fill_fill_click_witness :
  actions (trace (login sample_login_page (JsString "Kaley_Roob")
                        (JsString "secret_sauce") (configured 0)))
    = [Fill (usernameInput sample_login_page) (JsString "Kaley_Roob");
       Fill (passwordInput sample_login_page) (JsString "secret_sauce");
       Click (loginButton sample_login_page)].
Proof.
  apply (login_is_fill_fill_click sample_login_page (JsString "Kaley_Roob")
           (JsString "secret_sauce") (configured 0)).
  vm_compute. reflexivity.
Defined.

(** The queries of the sample engine leave the form as it is. *)
Lemma form_engine_query_pure : query_pure form_engine.
Proof.
  intros [pg u|l v|l|l|l] f Hq; try discriminate Hq; cbn;
    destruct (banner f); try reflexivity.
  now destruct (decide (loc_selector l = ByTestId "error")).
Defined.

Lemma error_accessors_read_only_witness :
  world (getErrorMessage sample_login_page (configured 0)) = configured 0
  /\ world (isErrorMessageVisible sample_login_page (configured 0))
       = configured 0.
Proof.
  apply (error_accessors_read_only sample_login_page (configured 0)).
  exact form_engine_query_pure.
Defined.

(** After a rejected login on the sample engine the two accessors read
    the banner and leave the form filled in as it was. *)
Example accessors_after_rejected_login :
  let w := world (login sample_login_page (JsString "Kaley_Roob")
                        (JsString "secret_sauce") (configured 0)) in
  outcome (isErrorMessageVisible sample_login_page w) = Returned (JsBool true)
  /\ outcome (getErrorMessage sample_login_page w)
       = Returned (JsString no_match_message)
  /\ world (getErrorMessage sample_login_page w) = w
  /\ usernameField (browser w) = "Kaley_Roob".
Proof. vm_compute. repeat split. Qed.

(** The propagation of C4 is a property of the code, not of the monad:
    a handler around a click would swallow the engine's error. *)
Remark swallowing_is_not_transparent :
  ~ transparent
      (try_catch (perform (Click (errorMessage sample_login_page)))
                 (fun _ => mret JsUndefined)
         : @M form_engine list_faker JsValue).
Proof.
  intros H. specialize (H (configured 0)). vm_compute in H. discriminate H.
Qed.

(** The scenario 'should display error with invalid username' on the
    sample engine: it passes when the generated username is not the
    configured one, and fails when the generator happens to produce the
    configured one (state 1), since the login then succeeds. *)
Example invalid_username_scenario_passes :
  outcome (should_display_error_with_invalid_username sample_page (configured 0))
    = Returned tt.
Proof. vm_compute. reflexivity. Qed.

Example invalid_username_scenario_collides :
  outcome (should_display_error_with_invalid_username sample_page (configured 1))
    = Threw (mkError "Error" "expect(received).toBeTruthy()").
Proof. vm_compute. reflexivity. Qed.

(** What the scenario checks, on any engine: when it passes, the engine
    answered the two final queries of the error banner with a truthy
    visibility and with exactly the expected text. *)
Lemma invalid_username_scenario_checks {E : Engine} {F : Faker}
    (pg : Page) (w : World) :
  outcome (should_display_error_with_invalid_username pg w) = Returned tt ->
  exists (pre : list Event) (v : JsValue),
    trace (should_display_error_with_invalid_username pg w)
      = pre ++ [Interacted (IsVisible (mkLocator pg (ByTestId "error")))
                           (Returned v);
                Interacted (TextContent (mkLocator pg (ByTestId "error")))
                           (Returned (JsString no_match_message))]
    /\ truthy v = true.
Proof.
  unfold should_display_error_with_invalid_username, beforeEach, new_LoginPage,
    navigate, login, enterUsername, enterPassword, clickLoginButton,
    isErrorMessageVisible, getErrorMessage, validCredentials,
    invalidCredentials, expect_toBeTruthy, expect_toBe, faker_userName,
    faker_password, process_env, locate.
  unfold mbind, M_bind, bind, mret, M_ret, ret, mthrow, M_throw, throw, perform.
  cbn.
  repeat match goal with
         | |- context [engine ?a ?b] =>
             destruct (engine a b) as [[?|?] ?]; cbn; try discriminate
         | |- context [faker_internet_userName ?g] =>
             destruct (faker_internet_userName g); cbn
         | |- context [faker_internet_password ?g] =>
             destruct (faker_internet_password g); cbn
         end.
  match goal with
  | |- context [truthy ?v] => destruct (truthy v) eqn:Hv; cbn; try discriminate
  end.
  repeat match goal with
         | |- context [engine ?a ?b] =>
             destruct (engine a b) as [[?|?] ?]; cbn; try discriminate
         end.
  match goal with
  | |- context [decide ?P] => destruct (decide P) as [->|]; cbn; try discriminate
  end.
  intros _. eexists (_ :: _ :: _ :: _ :: _ :: _ :: _ :: _ :: []), _.
  split; [reflexivity | assumption].
Qed.

(** * Further properties of the code *)

(** ** The page object *)

Ltac unfold_page_object :=
  unfold call, navigate, login, enterUsername, enterPassword,
    clickLoginButton, getErrorMessage, isErrorMessageVisible;
  unfold mbind, M_bind, bind, mret, M_ret, ret, perform.

Ltac case_engine :=
  repeat match goal with
         | |- context [engine ?a ?b] =>
             destruct (engine a b) as [[?|?] ?]; cbn
         end.

(** Every method addresses only the object's locators and page: the part
    of C8 that holds of any page object. *)
Lemma call_confined {E : Engine} {F : Faker}
    (this : LoginPage) (m : Method) (w : World) :
  confined this (trace (call this m w)).
Proof.
  destruct m; cbn [call];
    unfold navigate, enterUsername, enterPassword, clickLoginButton, login,
      getErrorMessage, isErrorMessageVisible; step_through.
Qed.

(** X1: no method of the page object reads or writes anything but the
    browser.  A call leaves [process.env] and the random source as they
    were, and two processes whose browsers are in the same state get the
    same outcome, make the same calls and leave the same browser state,
    whatever their configurations, generators and random sources are. *)
Theorem page_object_sees_only_browser
    {E : Engine} {F1 F2 : Faker} (this : LoginPage) (m : Method)
    (w1 : @World E F1) (w2 : @World E F2) :
  (env (world (call this m w1)) = env w1
   /\ rng (world (call this m w1)) = rng w1)
  /\ (browser w1 = browser w2 ->
      outcome (call this m w1) = outcome (call this m w2)
      /\ trace (call this m w1) = trace (call this m w2)
      /\ browser (world (call this m w1)) = browser (world (call this m w2))).
Proof.
  split.
  - destruct m; unfold_page_object; case_engine; split; reflexivity.
  - destruct w1 as [e1 g1 b1], w2 as [e2 g2 b2]. cbn [browser]. intros ->.
    destruct m; unfold_page_object; cbn [browser]; case_engine;
      repeat split; reflexivity.
Qed.

Lemma page_object_sees_only_browser_witness :
  outcome (call sample_login_page ClickLoginButton (configured 0))
    = outcome (call sample_login_page ClickLoginButton stuck)
  /\ trace (call sample_login_page ClickLoginButton (configured 0))
       = trace (call sample_login_page ClickLoginButton stuck)
  /\ browser (world (call sample_login_page ClickLoginButton (configured 0)))
       = browser (world (call sample_login_page ClickLoginButton stuck)).
Proof.
  apply (page_object_sees_only_browser sample_login_page ClickLoginButton
           (configured 0) stuck).
  reflexivity.
Defined.

(** X2: [login] stops at the first operation that fails.  When the engine
    rejects the fill of the username, [login] throws that error after this
    single call: the password is not filled and the button is not
    clicked.  When the username goes in and the fill of the password is
    rejected, [login] throws that error after the two fills, without a
    click. *)
Theorem login_stops_at_first_failure {E : Engine} {F : Faker}
    (this : LoginPage) (u p : JsValue) (w : World) (e : JsError) :
  let first := engine (Fill (usernameInput this) u) (browser w) in
  let second := engine (Fill (passwordInput this) p) first.2 in
  (first.1 = Threw e ->
   login this u p w =
     mkRun (Threw e) (set_browser first.2 w)
           [Interacted (Fill (usernameInput this) u) (Threw e)])
  /\ (forall v, first.1 = Returned v -> second.1 = Threw e ->
      login this u p w =
        mkRun (Threw e) (set_browser second.2 w)
              [Interacted (Fill (usernameInput this) u) (Returned v);
               Interacted (Fill (passwordInput this) p) (Threw e)]).
Proof.
  cbv zeta. unfold_page_object.
  destruct (engine (Fill (usernameInput this) u) (browser w)) as [r1 b1].
  cbn [fst snd]. split.
  - intros ->. reflexivity.
  - intros v ->. cbn.
    destruct (engine (Fill (passwordInput this) p) b1) as [r2 b2].
    cbn [fst snd]. intros ->. reflexivity.
Qed.

Lemma login_stops_at_first_failure_witness :
  login sample_login_page JsUndefined (JsString "secret_sauce") (configured 0)
    = mkRun (Threw (mkError "Error" "locator.fill: value: expected string"))
            (configured 0)
            [Interacted (Fill (usernameInput sample_login_page) JsUndefined)
               (Threw (mkError "Error" "locator.fill: value: expected string"))]
  /\ login sample_login_page (JsString "standard_user") JsUndefined (configured 0)
       = mkRun (Threw (mkError "Error" "locator.fill: value: expected string"))
               (@set_browser form_engine list_faker
                  (mkForm "about:blank" "standard_user" "" None) (configured 0))
               [Interacted (Fill (usernameInput sample_login_page)
                                 (JsString "standard_user"))
                           (Returned JsUndefined);
                Interacted (Fill (passwordInput sample_login_page) JsUndefined)
                  (Threw (mkError "Error" "locator.fill: value: expected string"))].
Proof.
  split.
  - apply (proj1 (login_stops_at_first_failure sample_login_page JsUndefined
                    (JsString "secret_sauce") (configured 0)
                    (mkError "Error" "locator.fill: value: expected string"))).
    reflexivity.
  - apply (proj2 (login_stops_at_first_failure sample_login_page
                    (JsString "standard_user") JsUndefined (configured 0)
                    (mkError "Error" "locator.fill: value: expected string"))
             JsUndefined); reflexivity.
Defined.

Lemma new_LoginPage_returns {E : Engine} {F : Faker}
    (pg : Page) (w : World) (this : LoginPage) :
  outcome (new_LoginPage pg w) = Returned this ->
  this = mkLoginPage pg (mkLocator pg (ByPlaceholder "Username"))
                        (mkLocator pg (ByPlaceholder "Password"))
                        (mkLocator pg (ByRole "button" "Login"))
                        (mkLocator pg (ByTestId "error")).
Proof. cbn. intros [= <-]. reflexivity. Qed.

Lemma confined_actions {E : Engine} {F : Faker}
    (this : LoginPage) (t : list Event) :
  confined this t -> Forall (targets this) (actions t).
Proof.
  induction 1 as [|[l|a r] t Hev _ IH]; cbn;
    [constructor | destruct Hev | constructor; assumption].
Qed.

(** X3: a page object never leaves the page it was built on.  Every
    operation that any method of [new LoginPage(page)] awaits goes to
    [page]; so two page objects built on different pages (two tests, each
    with its own session) never address an element or the page of one
    another. *)
Theorem operations_stay_on_own_page {E : Engine} {F : Faker}
    (pg other : Page) (w0 w0' : World) (this that : LoginPage) :
  outcome (new_LoginPage pg w0) = Returned this ->
  outcome (new_LoginPage other w0') = Returned that ->
  forall (m : Method) (w : World),
    Forall (fun a => action_page a = pg
                     /\ (other <> pg -> ~ targets that a))
           (actions (trace (call this m w))).
Proof.
  intros Hthis Hthat m w.
  apply new_LoginPage_returns in Hthis, Hthat. subst this that.
  eapply Forall_impl; [apply confined_actions, call_confined|].
  intros a Ha.
  assert (action_page a = pg) as Hpg.
  { destruct a; cbn in Ha |- *; [assumption|..];
      rewrite !elem_of_cons, elem_of_nil in Ha;
      destruct Ha as [->|[->|[->|[->|[]]]]]; reflexivity. }
  split; [exact Hpg|]. intros Hne Hthat.
  destruct a; cbn in Hpg, Hthat; [congruence|..];
    rewrite !elem_of_cons, elem_of_nil in Hthat;
    destruct Hthat as [->|[->|[->|[->|[]]]]]; cbn in Hpg; congruence.
Qed.

Lemma operations_stay_on_own_page_witness :
  Forall (fun a => action_page a = sample_page
                   /\ (mkPage 2 <> sample_page ->
                       ~ targets (mkLoginPage (mkPage 2)
                                    (mkLocator (mkPage 2) (ByPlaceholder "Username"))
                                    (mkLocator (mkPage 2) (ByPlaceholder "Password"))
                                    (mkLocator (mkPage 2) (ByRole "button" "Login"))
                                    (mkLocator (mkPage 2) (ByTestId "error"))) a))
         (actions (trace (call sample_login_page
                               (Login (JsString "Kaley_Roob") (JsString "x"))
                               (configured 0)))).
Proof.
  apply (operations_stay_on_own_page sample_page (mkPage 2)
           (configured 0) (configured 0) sample_login_page _); reflexivity.
Defined.

(** X4: the four locators of a page object are four different handles:
    no two fields of [new LoginPage(page)] address the same element
    query, so an action on one field is never an action on another. *)
Theorem locators_pairwise_distinct {E : Engine} {F : Faker}
    (pg : Page) (w : World) (this : LoginPage) :
  outcome (new_LoginPage pg w) = Returned this ->
  NoDup [usernameInput this; passwordInput this;
         loginButton this; errorMessage this].
Proof.
  intros Hthis. apply new_LoginPage_returns in Hthis. subst this.
  cbn [usernameInput passwordInput loginButton errorMessage].
  repeat (apply NoDup_cons; split;
          [rewrite ?elem_of_cons, elem_of_nil; intros H;
           repeat (destruct H as [H|H]; [discriminate H|]); exact H|]).
  apply NoDup_nil. exact I.
Qed.

Lemma locators_pairwise_distinct_witness :
  NoDup [usernameInput sample_login_page; passwordInput sample_login_page;
         loginButton sample_login_page; errorMessage sample_login_page].
Proof.
  apply (locators_pairwise_distinct sample_page (configured 0)
           sample_login_page).
  reflexivity.
Defined.

(** ** The data factory with the page object *)

(** X5: fetching credentials and acting on the page do not interfere.
    Calling [invalidCredentials()] before a method of the page object or
    after it gives the same credentials-and-result, the same calls to the
    engine, the same browser and the same configuration; the two orders
    differ only in that, when the method throws, the generator has
    already been advanced in the first and not in the second.  With
    [validCredentials()] the two orders are indistinguishable. *)
Theorem factory_and_page_object_commute {E : Engine} {F : Faker}
    (this : LoginPage) (m : Method) (w : World) :
  let before := (c ← invalidCredentials; v ← call this m; mret (c, v)) w in
  let after := (v ← call this m; c ← invalidCredentials; mret (c, v)) w in
  (outcome before = outcome after
   /\ trace before = trace after
   /\ browser (world before) = browser (world after)
   /\ env (world before) = env (world after)
   /\ (forall v, outcome (call this m w) = Returned v -> before = after))
  /\ (c ← validCredentials; v ← call this m; mret (c, v)) w
     = (v ← call this m; c ← validCredentials; mret (c, v)) w.
Proof.
  cbv zeta. unfold invalidCredentials, validCredentials, process_env,
    faker_userName, faker_password.
  destruct (faker_internet_userName (rng w)) as [s1 g1] eqn:Hu.
  destruct (faker_internet_password g1) as [s2 g2] eqn:Hp.
  destruct m; unfold_page_object; cbn; rewrite ?Hu; cbn; rewrite ?Hp; cbn;
    case_engine; rewrite ?Hu; cbn; rewrite ?Hp; cbn;
    repeat split; try reflexivity; try discriminate.
Qed.

Lemma factory_and_page_object_commute_witness :
  (c ← invalidCredentials; v ← call sample_login_page Navigate; mret (c, v))
    (configured 0)
  = (v ← call sample_login_page Navigate; c ← invalidCredentials; mret (c, v))
      (configured 0).
Proof.
  destruct (factory_and_page_object_commute sample_login_page Navigate
              (configured 0)) as [(_ & _ & _ & _ & Hsame) _].
  apply (Hsame JsUndefined). reflexivity.
Defined.

(** ** The data factory *)

(** X6: which credentials are well formed.  [invalidCredentials()] always
    returns two strings and [randomPassword()] a string, whatever the
    configuration.  A field of [validCredentials()] is a string exactly
    when its variable is set: the record is a pair of strings if and only
    if both [VALID_USERNAME] and [VALID_USER_PASSWORD] are configured. *)
Theorem credentials_well_formed {E : Engine} {F : Faker} (w : World) :
  (exists c, outcome (invalidCredentials w) = Returned c
             /\ is_string (username c) = true
             /\ is_string (password c) = true)
  /\ (exists v, outcome (randomPassword w) = Returned v /\ is_string v = true)
  /\ (exists c, outcome (validCredentials w) = Returned c
                /\ (is_string (username c) = true
                    <-> is_Some (env w !! "VALID_USERNAME"))
                /\ (is_string (password c) = true
                    <-> is_Some (env w !! "VALID_USER_PASSWORD"))).
Proof.
  split; [|split].
  - pose proof (invalidCredentials_run w) as H. cbv zeta in H. rewrite H.
    eexists. repeat split.
  - unfold randomPassword. rewrite faker_password_run. eexists.
    repeat split.
  - rewrite validCredentials_run. eexists. split; [reflexivity|].
    cbn [username password]. unfold env_value.
    destruct (env w !! "VALID_USERNAME"), (env w !! "VALID_USER_PASSWORD");
      cbn; repeat split; intros; try discriminate; eauto;
      match goal with H : is_Some None |- _ => destruct H; discriminate end.
Qed.

Lemma credentials_well_formed_witness :
  exists c, outcome (validCredentials (configured 0)) = Returned c
            /\ is_string (username c) = true
            /\ is_string (password c) = true.
Proof.
  destruct (credentials_well_formed (configured 0))
    as (_ & _ & c & Hc & Hu & Hp).
  exists c. split; [exact Hc|].
  split; [apply Hu | apply Hp]; vm_compute; eauto.
Defined.

(** ** The scenarios *)

Section Scenarios.
Context {E : Engine} {F : Faker}.

Lemma checked_propagated {A} (r : Run A) : propagated r -> checked r.
Proof.
  unfold propagated, checked. destruct (outcome r); [trivial | now left].
Qed.

Lemma checked_bind {A B} (m : M A) (k : A -> M B) (w : World) :
  checked (m w) -> (forall a w', checked (k a w')) -> checked ((m ≫= k) w).
Proof.
  intros Hm Hk. unfold checked in *.
  destruct (outcome (m w)) as [a|e] eqn:Hout.
  - rewrite (bind_returned _ _ _ _ Hout). cbn [outcome trace].
    specialize (Hk a (world (m w))). unfold checked in Hk.
    destruct (outcome (k a (world (m w)))) as [b|e].
    + now rewrite failures_app, Hm, Hk.
    + destruct Hk as [(pre & act & Htr & Hpre)|[Hassert Hnone]].
      * left. exists (trace (m w) ++ pre), act. split.
        -- now rewrite Htr, app_assoc.
        -- now rewrite failures_app, Hm, Hpre.
      * right. split; [exact Hassert|]. now rewrite failures_app, Hm, Hnone.
  - rewrite (bind_threw _ _ _ _ Hout). cbn [outcome trace]. exact Hm.
Qed.

Lemma checked_expect_toBeTruthy (v : JsValue) (w : World) :
  checked (expect_toBeTruthy v w).
Proof.
  unfold expect_toBeTruthy, checked. destruct (truthy v); cbn;
    [reflexivity|]. right. split; [now left | reflexivity].
Qed.

Lemma checked_expect_toBe (v x : JsValue) (w : World) :
  checked (expect_toBe v x w).
Proof.
  unfold expect_toBe, checked. destruct (decide (v = x)); cbn;
    [reflexivity|]. right. split; [now right | reflexivity].
Qed.

Ltac check_through :=
  repeat first
    [ apply checked_bind; [|intros ? ?]
    | apply checked_expect_toBeTruthy
    | apply checked_expect_toBe
    | apply checked_propagated;
      first [ apply transparent_perform | apply transparent_locate
            | apply transparent_ret | apply transparent_process_env
            | apply transparent_faker_userName
            | apply transparent_faker_password ] ].

(** X7: the scenarios handle no failure either.  A scenario that passes
    has seen no error from the engine.  One that fails throws either the
    error of the operation the engine rejected, unchanged, right after
    that operation and with no failure before it, or, the engine never
    having failed, one of the two assertion errors. *)
Theorem scenarios_throw_engine_or_assertion
    (s : Scenario) (pg : Page) (w : World) :
  checked (scenario s pg w).
Proof.
  destruct s; cbn [scenario];
    unfold should_display_error_with_invalid_username,
      should_display_error_with_invalid_password,
      should_display_error_with_empty_credentials,
      isErrorMessageVisible, getErrorMessage;
    check_through.
Qed.

End Scenarios.

Ltac unfold_scenarios :=
  unfold scenario, should_display_error_with_invalid_username,
    should_display_error_with_invalid_password,
    should_display_error_with_empty_credentials, beforeEach, new_LoginPage,
    navigate, login, enterUsername, enterPassword, clickLoginButton,
    isErrorMessageVisible, getErrorMessage, validCredentials,
    invalidCredentials, expect_toBeTruthy, expect_toBe, faker_userName,
    faker_password, process_env, locate;
  unfold mbind, M_bind, bind, mret, M_ret, ret, mthrow, M_throw, throw, perform.

Ltac case_run :=
  repeat match goal with
         | |- context [engine ?a ?b] =>
             destruct (engine a b) as [[?|?] ?]; cbn
         | |- context [faker_internet_userName ?g] =>
             destruct (faker_internet_userName g) as [? ?]; cbn
         | |- context [faker_internet_password ?g] =>
             destruct (faker_internet_password g) as [? ?]; cbn
         | |- context [truthy ?v] => destruct (truthy v) eqn:?; cbn
         | |- context [decide (?x = ?y)] =>
             destruct (decide (x = y)) as [->|?]; cbn
         end.

(** X8: what a passing scenario has seen.  Each of the three scenarios
    returns only if the engine answered its last two operations, the two
    queries of the error banner, with a truthy visibility and with
    exactly the text the scenario expects. *)
Theorem scenario_passes_only_on_expected_banner {E : Engine} {F : Faker}
    (s : Scenario) (pg : Page) (w : World) :
  outcome (scenario s pg w) = Returned tt ->
  exists (pre : list Event) (v : JsValue),
    trace (scenario s pg w)
      = pre ++ [Interacted (IsVisible (mkLocator pg (ByTestId "error")))
                           (Returned v);
                Interacted (TextContent (mkLocator pg (ByTestId "error")))
                           (Returned (JsString (expected_message s)))]
    /\ truthy v = true.
Proof.
  destruct s; unfold_scenarios; cbn; case_run;
    try discriminate; intros _.
  - eexists (_ :: _ :: _ :: _ :: _ :: _ :: _ :: _ :: []), _.
    split; [reflexivity | assumption].
  - eexists (_ :: _ :: _ :: _ :: _ :: _ :: _ :: _ :: []), _.
    split; [reflexivity | assumption].
  - eexists (_ :: _ :: _ :: _ :: _ :: _ :: []), _.
    split; [reflexivity | assumption].
Qed.

Lemma scenario_passes_only_on_expected_banner_witness :
  exists (pre : list Event) (v : JsValue),
    trace (scenario EmptyCredentials sample_page (configured 0))
      = pre ++ [Interacted (IsVisible (mkLocator sample_page (ByTestId "error")))
                           (Returned v);
                Interacted (TextContent (mkLocator sample_page (ByTestId "error")))
                           (Returned (JsString (expected_message EmptyCredentials)))]
    /\ truthy v = true.
Proof.
  apply (scenario_passes_only_on_expected_banner EmptyCredentials sample_page
           (configured 0)).
  vm_compute. reflexivity.
Defined.

(** X9: the script of each scenario.  Every scenario creates the four
    locators once, and then awaits an initial part of its script: the
    navigation to ["/"], the fills (the generated username with the
    configured password; the configured username with the generated
    password, which is drawn after the username; none), the click and
    the two queries of the banner.  It awaits the whole script whenever
    it passes, and when it does not pass because an assertion fails it
    has still awaited nothing outside the script. *)
Theorem scenario_follows_script {E : Engine} {F : Faker}
    (s : Scenario) (pg : Page) (w : World) :
  actions (trace (scenario s pg w)) `prefix_of` script s pg w
  /\ located (trace (scenario s pg w))
       = [mkLocator pg (ByPlaceholder "Username");
          mkLocator pg (ByPlaceholder "Password");
          mkLocator pg (ByRole "button" "Login");
          mkLocator pg (ByTestId "error")]
  /\ (outcome (scenario s pg w) = Returned tt ->
      actions (trace (scenario s pg w)) = script s pg w).
Proof.
  unfold script.
  destruct s; unfold_scenarios; cbn; case_run.
  all: split; [eexists; reflexivity|].
  all: split; [reflexivity|].
  all: first [discriminate | intros _; reflexivity].
Qed.

Lemma scenario_follows_script_witness :
  actions (trace (scenario InvalidPassword sample_page (configured 1)))
    = script InvalidPassword sample_page (configured 1).
Proof.
  apply (scenario_follows_script InvalidPassword sample_page (configured 1)).
  vm_compute. reflexivity.
Defined.

#[local] Arguments env_value : simpl never.

Ltac case_run_with H :=
  repeat first
    [ rewrite H
    | match goal with
      | |- context [engine ?a ?b] =>
          destruct (engine a b) as [[?|?] ?]; cbn
      | |- context [faker_internet_userName ?g] =>
          destruct (faker_internet_userName g) as [? ?]; cbn
      | |- context [faker_internet_password ?g] =>
          destruct (faker_internet_password g) as [? ?]; cbn
      | |- context [truthy ?v] => destruct (truthy v) eqn:?; cbn
      | |- context [decide (?x = ?y)] =>
          destruct (decide (x = y)) as [->|?]; cbn
      end ].

Lemma env_value_agree (m1 m2 : gmap string string) (name : string) :
  m1 !! name = m2 !! name -> env_value m1 name = env_value m2 name.
Proof. unfold env_value. now intros ->. Qed.

Lemma env_value_unset (m : gmap string string) (name : string) :
  m !! name = None -> env_value m name = JsUndefined.
Proof. unfold env_value. now intros ->. Qed.

(** X10: what each scenario depends on.  Started on browsers in the same
    state, two runs of the empty-credentials scenario end the same way
    and make the same calls whatever the configuration and the random
    source are.  The invalid-username scenario depends, besides, only on
    the random source and on [VALID_USER_PASSWORD]: it reads
    [VALID_USERNAME] but never uses it, and in particular never compares
    the generated username with it.  Symmetrically the invalid-password
    scenario depends only on the random source and on [VALID_USERNAME]. *)
Theorem scenario_inputs {E : Engine} {F : Faker} (pg : Page) (w1 w2 : World) :
  browser w1 = browser w2 ->
  (outcome (scenario EmptyCredentials pg w1)
     = outcome (scenario EmptyCredentials pg w2)
   /\ trace (scenario EmptyCredentials pg w1)
        = trace (scenario EmptyCredentials pg w2))
  /\ (rng w1 = rng w2 ->
      env w1 !! "VALID_USER_PASSWORD" = env w2 !! "VALID_USER_PASSWORD" ->
      outcome (scenario InvalidUsername pg w1)
        = outcome (scenario InvalidUsername pg w2)
      /\ trace (scenario InvalidUsername pg w1)
           = trace (scenario InvalidUsername pg w2))
  /\ (rng w1 = rng w2 ->
      env w1 !! "VALID_USERNAME" = env w2 !! "VALID_USERNAME" ->
      outcome (scenario InvalidPassword pg w1)
        = outcome (scenario InvalidPassword pg w2)
      /\ trace (scenario InvalidPassword pg w1)
           = trace (scenario InvalidPassword pg w2)).
Proof.
  destruct w1 as [e1 g1 b1], w2 as [e2 g2 b2]. cbn [browser rng env].
  intros ->. split; [|split].
  - unfold_scenarios; cbn; case_run; split; reflexivity.
  - intros -> Hp. apply env_value_agree in Hp.
    unfold_scenarios; cbn; case_run_with Hp; split; reflexivity.
  - intros -> Hu. apply env_value_agree in Hu.
    unfold_scenarios; cbn; case_run_with Hu; split; reflexivity.
Qed.

Lemma scenario_inputs_witness :
  outcome (scenario InvalidUsername sample_page (configured 0))
    = outcome (scenario InvalidUsername sample_page (other_user 0))
  /\ trace (scenario InvalidUsername sample_page (configured 0))
       = trace (scenario InvalidUsername sample_page (other_user 0)).
Proof.
  destruct (scenario_inputs sample_page (configured 0) (other_user 0) eq_refl)
    as (_ & Hsame & _).
  apply Hsame; [reflexivity | vm_compute; reflexivity].
Defined.

(** The sample engine refuses to fill a field with a non-string. *)
Lemma form_engine_fill_needs_string : fill_needs_string form_engine.
Proof. intros l [ | |b|s] f; cbn; eauto. Defined.

(** X11: where a missing configuration shows.  The factory does not
    report an unset variable; the scenario hands the [undefined] to the
    engine.  With an engine that refuses to fill a field with a
    non-string, the invalid-username scenario run without
    [VALID_USER_PASSWORD], and the invalid-password scenario run without
    [VALID_USERNAME], always fail, with an error of the engine as their
    last call, and never get to click the login button. *)
Theorem unset_variable_fails_at_fill {E : Engine} {F : Faker}
    (s : Scenario) (pg : Page) (w : World) :
  fill_needs_string E ->
  match s with
  | InvalidUsername => env w !! "VALID_USER_PASSWORD" = None
  | InvalidPassword => env w !! "VALID_USERNAME" = None
  | EmptyCredentials => False
  end ->
  exists (e : JsError) (pre : list Event) (a : Action),
    outcome (scenario s pg w) = Threw e
    /\ trace (scenario s pg w) = pre ++ [Interacted a (Threw e)]
    /\ forall l, Click l ∉ actions (trace (scenario s pg w)).
Proof.
  intros Hfill Hunset. destruct w as [m g b0]. cbn [env] in Hunset.
  destruct s; [| |destruct Hunset]; apply env_value_unset in Hunset;
    unfold_scenarios; cbn;
    repeat first
      [ rewrite Hunset
      | match goal with
        | |- context [engine (Fill ?l JsUndefined) ?b] =>
            let Hx := fresh in
            destruct (Hfill l JsUndefined b) as [? Hx];
            destruct (engine (Fill l JsUndefined) b) as [? ?];
            cbn in Hx; subst; cbn
        | |- context [engine ?a ?b] =>
            destruct (engine a b) as [[?|?] ?]; cbn
        | |- context [faker_internet_userName ?g] =>
            destruct (faker_internet_userName g) as [? ?]; cbn
        | |- context [faker_internet_password ?g] =>
            destruct (faker_internet_password g) as [? ?]; cbn
        end ];
    eexists; first [ exists []; eexists; split; [reflexivity|];
                     split; [reflexivity|]
                   | eexists [_]; eexists; split; [reflexivity|];
                     split; [reflexivity|]
                   | eexists [_; _]; eexists; split; [reflexivity|];
                     split; [reflexivity|]
                   | eexists [_; _; _]; eexists; split; [reflexivity|];
                     split; [reflexivity|]
                   | eexists [_; _; _; _]; eexists; split; [reflexivity|];
                     split; [reflexivity|]
                   | eexists [_; _; _; _; _]; eexists; split; [reflexivity|];
                     split; [reflexivity|]
                   | eexists [_; _; _; _; _; _]; eexists; split; [reflexivity|];
                     split; [reflexivity|] ];
    intros l; rewrite ?elem_of_cons, elem_of_nil; intros Hin;
    repeat (destruct Hin as [Hin|Hin]; [discriminate Hin|]); exact Hin.
Qed.

Lemma unset_variable_fails_at_fill_witness :
  exists (e : JsError) (pre : list Event) (a : Action),
    outcome (scenario InvalidUsername sample_page (unconfigured 0)) = Threw e
    /\ trace (scenario InvalidUsername sample_page (unconfigured 0))
         = pre ++ [Interacted a (Threw e)]
    /\ forall l,
         Click l ∉ actions (trace (scenario InvalidUsername sample_page
                                            (unconfigured 0))).
Proof.
  apply (unset_variable_fails_at_fill InvalidUsername sample_page
           (unconfigured 0)).
  - exact form_engine_fill_needs_string.
  - vm_compute. reflexivity.
Defined.

(** ** The accessors, composed *)


